(* ===== verification/_CoqProject ===== *)
-Q . S2P
Prelude.v
Hooks.v
Browser.v
Theme.v
Door.v
Navigation.v
Spec.v
App.v
Traces.v
