(* ===== verification/Prelude.v ===== *)
(** * A verification development of the smartlock web interface

    The program (src/src/App.js and src/src/ThemeContext.js) is a React
    single-page interface with two pages (door control and instructions),
    a navigation drawer, and a light/dark theme persisted in the browser's
    localStorage.  The door action is a stub that only logs the intent.

    ** The program's parts and how they interact

    - [ThemeProvider] (ThemeContext.js) owns one [useState] hook, [mode],
      initialised lazily from [localStorage.getItem('theme')] and the
      [(prefers-color-scheme: dark)] media query.  Through a React context
      ([createContext()], with no default value) it exposes
      [{ isDarkMode, toggleTheme }]; [toggleTheme] passes [setMode] an
      updater function that computes the new mode and writes it to
      localStorage.  A [useMemo] builds the MUI theme options from [mode].
    - [MainContent] (App.js) owns [isDoorLocked] (initially [true]),
      [currentPage] (['home']) and [drawerOpen] ([false]); it reads
      [isMobile] from [useMediaQuery('(max-width:768px)')] and the context
      through [useTheme()].  Its handler [toggleDoorLock] negates the
      rendered value of [isDoorLocked], passes it to the setter and logs
      the intent.  It renders the drawer, the mobile app bar, the home or
      the instructions page, and a footer.
    - [NavigationDrawer] (App.js) receives [currentPage], [setCurrentPage],
      [isMobile], [drawerOpen] and [setDrawerOpen] as props.  It renders
      the navigation items (a click selects the page and, on mobile, closes
      the drawer) and the theme item with a switch; the switch's [onClick]
      stops propagation so that a click on it reaches [toggleTheme] once
      (through [onChange]) and not a second time through the item.
    - [App] renders [ThemeProvider] around [MainContent].

    ** Files, and what models what

    - [Prelude] (this file): JavaScript primitives the code relies on
      ([strict_eq] is [===] on strings, [opt_strict_eq] and [truthy] for
      the nullable result of [getItem]), the [js_scope] notation [===],
      the hint database [smartlock] and the tactic [js_case].
    - [Hooks], Module [React]: the React semantics the code is written
      against (not code of the repository, so not mapped): an [update] is
      a replacement value or an updater function; [process_queue] applies
      a hook's queue in enqueue order at the next render, threading the
      world an updater may touch; a handler body is a list of [effect]s
      (enqueue an update, [console.log], [stopPropagation]); [propagate]
      runs the listeners of a path until one stops propagation and
      [dispatch_native] runs the synthetic events of one native event.
    - [Browser]: the browser services, as interfaces: the [WebStorage]
      typeclass ([getItem]/[setItem]) with its laws [WebStorageLaws],
      implemented by [gmap string string]; media queries ([matches]) on an
      [environment] (viewport width, colour preference); the icons.
    - [Theme], Module [Theme]: ThemeContext.js.  [initial_mode] (the lazy
      initializer), [toggle_updater]/[toggle_update]/[toggleTheme],
      [context_default] and [useTheme], [provider_value] (the context
      value) and [theme_options] (the object passed to [createTheme]).
      The section [laws] proves the theorems against [WebStorageLaws]
      only; the abstract [Mode] with [flip] is what they refine.
    - [Door], Module [Door]: [toggleDoorLock], [lock_message] and
      [renderHomePage] of MainContent, with the hook setter as a section
      variable, as the code receives it.
    - [Navigation], Module [Navigation]: [navItems], [render_nav_item],
      [nav_item_onClick], [drawerContent], [NavigationDrawer], [appBar] and
      [renderInstructionsPage], with [setCurrentPage] and [setDrawerOpen]
      as section variables (the props of the code).
    - [Spec], Module [Spec]: the abstract specification of the interface
      (lock flag, page, theme, drawer flag, history of lock intents; the
      operations with their enabling conditions and effects).
    - [App], Module [App]: the running page as a state machine.  A [world]
      holds the four hooks, localStorage, the console and the environment;
      the constructors of [act] are the hook setters handed to the
      components.  [render] computes the view, whose handlers close over
      the rendered values; [event_paths] finds the listeners an event
      reaches in that view (none when its target is not on screen);
      [dispatch] runs them and [commit]s every hook's queue, ThemeProvider's
      first.  [step] adds viewport or colour-preference changes and page
      reloads; [reachable] closes the initial worlds under [step].
      [render_tree] renders the element tree under the nearest provider
      and reports the [TypeError] of destructuring a missing context.
    - [Traces], Module [Traces]: runs of events ([run]), the six-click
      [plan] reaching any lock state, page and theme, and viewport changes
      interleaved with clicks.

    ** What the theorems show

    - Refinement: [App.dispatch_refines]: from every reachable world each
      UI event performs the abstract operation of [Spec] when it is
      enabled (its control is on screen) and does nothing otherwise;
      [Theme.toggle_updater_refines]: the updater refines [Theme.flip].
    - Invariants (by induction on [reachable], [App.reachable_invariant]):
      the mode is ["light"] or ["dark"], the page a navigation id, a mode
      name in storage is the mode on screen, and the last console line is
      the intent for the current lock state; exactly one page is shown
      and one navigation item selected.
    - Functional behaviour of every UI event on every branch
      ([App.dispatch_door_button], [dispatch_theme_controls] (the switch
      toggles exactly once), [dispatch_nav_item], [dispatch_menu_button],
      [dispatch_close_drawer]), of the initializer on every stored value
      ([Theme.initial_mode_dark_iff]) and of the home page's rendering.
    - Round trips through localStorage: a reload after a toggle reads the
      toggled mode back ([Theme.toggle_reload_roundtrip],
      [App.theme_switch_then_reload]).
    - Batching: two [toggleTheme] calls in one render compose
      ([Theme.toggle_update_twice]) while two [toggleDoorLock] calls flip
      the lock once and log twice ([Door.toggleDoorLock_batched_twice]).
    - Bounds: the layout switches at a viewport width of 768 pixels, the
      bound included in the mobile layout ([App.layout_breakpoint]).
    - Errors: events whose target is not rendered are [None] (in the
      functional theorems above); [App.render_tree] models the [TypeError]
      of a consumer rendered without a provider, which the App tree avoids
      by construction (it is not stated as a theorem).
    - Type: the [mode] hook, a string in the code, only ever holds
      ['light'] or ['dark'], from its initializer and after any number of
      toggles ([Theme.mode_hook_type]).
    - Liveness: from every reachable world every lock state, page and
      theme is reached by at most six clicks on controls that are on
      screen ([Traces.plan_reaches]).
    - Interleavings with the environment: a navigation made while the
      viewport is wide leaves the mobile drawer flagged open
      ([Traces.drawer_survives_desktop_navigation]).

    ** Bounds and fuel

    No definition needs fuel: every handler is straight-line, queues and
    propagation paths are finite lists processed structurally, and the
    state machine's runs are finite sequences of [step]s.  The code has
    no loop other than [navItems.map] over a two-element constant list,
    so there is no termination property to state beyond the totality of
    the definitions, which the kernel checks; [Traces.run] is structural
    on the event list.  The liveness bound of six clicks counts at most one
    click per phase of the plan: one to show the drawer, one for the theme, one to go home, one
    for the lock, one to reopen the mobile drawer, one for the page.
    Widths are unbounded integers ([Z]) compared with the query's 768;
    nothing in the code wraps around.

    ** Not modelled

    Layout-only style values ([sx] sizes, margins, flex settings),
    MUI's rendering of the theme ([createTheme], [CssBaseline], the
    component library) and the icon imports; React's development-mode
    double invocation of updaters (the updater's write is idempotent);
    the transient first render of [useMediaQuery]; a localStorage that
    throws (quota or privacy mode), which the code does not handle
    either; writes to localStorage by other tabs of the same site: the
    code reads the key only in the initializer and has no [storage]
    listener, so such a write changes nothing on screen until a reload,
    which is an observation about code that is absent rather than a
    theorem about the code present.

    ** Possible extensions

    State the abstract [Spec] machine's own reachability and relate its
    runs to [Traces.run] (a trace refinement); model the
    [useMemo] dependency on [mode] (the theme object is recomputed
    exactly when the mode changes). *)

From stdpp Require Import base strings list.

Declare Scope js_scope.
Delimit Scope js_scope with js.
(** String literals are read in [string_scope]; [++] stays list append
    (string concatenation is written [String.append], as [+] in the code). *)
Open Scope string_scope.
Open Scope list_scope.

Create HintDb smartlock discriminated.
Create Rewrite HintDb smartlock.

(** ** JavaScript primitives *)

(** Strict equality [a === b] between two strings. *)
Definition strict_eq (a b : string) : bool := String.eqb a b.
Infix "===" := strict_eq (at level 65, no associativity) : js_scope.
Open Scope js_scope.

(** [x === s] where [x] is a nullable string (as returned by
    [localStorage.getItem]); [null === s] is false. *)
Definition opt_strict_eq (o : option string) (s : string) : bool :=
  match o with
  | Some v => v === s
  | None => false
  end.

(** Truthiness of a nullable string: [null] and [""] are falsy. *)
Definition truthy (o : option string) : bool :=
  match o with
  | Some v => negb (v === "")
  | None => false
  end.

(** ** Lemmas on the primitives *)

Lemma strict_eq_spec (a b : string) : a === b = true <-> a = b.
Proof. apply String.eqb_eq. Qed.

Lemma strict_eq_refl (a : string) : a === a = true.
Proof. by apply strict_eq_spec. Qed.

Lemma strict_eq_neq (a b : string) : a <> b -> a === b = false.
Proof. apply String.eqb_neq. Qed.

Lemma strict_eq_reflect (a b : string) : reflect (a = b) (a === b).
Proof. apply iff_reflect. symmetry. apply strict_eq_spec. Qed.

Lemma opt_strict_eq_spec (o : option string) (s : string) :
  opt_strict_eq o s = true <-> o = Some s.
Proof.
  destruct o as [v|]; simpl; [|split; congruence].
  rewrite strict_eq_spec. split; congruence.
Qed.

Lemma truthy_false_iff (o : option string) :
  truthy o = false <-> o = None \/ o = Some "".
Proof.
  destruct o as [v|]; simpl; [|tauto].
  destruct (strict_eq_reflect v ""); simpl; subst; split; intuition congruence.
Qed.

#[export] Hint Rewrite strict_eq_refl : smartlock.
#[export] Hint Resolve strict_eq_refl strict_eq_neq : smartlock.

(** [js_case a b] splits on the outcome of [a === b], substituting in
    the equal case. *)
Ltac js_case a b :=
  destruct (strict_eq_reflect a b) as [->|?].

#[export] Hint Rewrite @last_snoc : smartlock.
