(* ===== verification/Hooks.v ===== *)
(** * React state hooks and DOM event dispatch

    The semantics of the React primitives the components use, as the
    components rely on them:
    - [useState]: a setter call enqueues an [update] (a replacement value
      [setX(v)] or an updater function [setX(prev => ...)]); at the next
      render the hook's queue is processed in enqueue order, each updater
      receiving the value produced by the previous update.  Updater
      functions may touch the outside world (ThemeContext.js writes to
      localStorage inside one), so an updater also threads a world [W].
    - event handlers: a handler body is a sequence of [effect]s (enqueue a
      hook update, [console.log], [event.stopPropagation()]); a DOM event
      runs the handlers along its propagation path, target first, and the
      path ends after the first handler that stopped propagation.

    The lemmas here are the algebra of queues and paths used by the
    component files. *)

From stdpp Require Import base list strings.
From S2P Require Import Prelude.

Module React.

(** ** useState updates *)

Inductive update (A W : Type) : Type :=
  | Replace (v : A)
  | Updater (f : A -> W -> A * W).
Arguments Replace {A W} v.
Arguments Updater {A W} f.

Definition apply_update {A W} (u : update A W) (aw : A * W) : A * W :=
  match u with
  | Replace v => (v, aw.2)
  | Updater f => f aw.1 aw.2
  end.

(** Processing a hook's queue at render, from the committed value and the
    world: updates in enqueue order. *)
Definition process_queue {A W} (q : list (update A W)) (aw : A * W) : A * W :=
  foldl (fun aw u => apply_update u aw) aw q.

(** ** Event handlers *)

Inductive effect (Act : Type) : Type :=
  | Enqueue (a : Act)
  | Log (msg : string)
  | StopPropagation.
Arguments Enqueue {Act} a.
Arguments Log {Act} msg.
Arguments StopPropagation {Act}.

Abbreviation handler Act := (list (effect Act)).

Definition is_stop {Act} (e : effect Act) : bool :=
  match e with StopPropagation => true | _ => false end.

Definition stops {Act} (h : handler Act) : bool := existsb is_stop h.

(** Bubbling: run each listener of the path, target first, and stop after
    a listener that called [stopPropagation]. *)
Fixpoint propagate {Act} (path : list (handler Act)) : handler Act :=
  match path with
  | [] => []
  | h :: rest => h ++ (if stops h then [] else propagate rest)
  end.

(** A native event can produce several synthetic events (a click on a
    checkbox produces a [click] and a [change]), each with its own path;
    they are dispatched in order. *)
Definition dispatch_native {Act} (paths : list (list (handler Act))) : handler Act :=
  concat (map propagate paths).

(** The hook updates and the console lines a handler produced. *)
Definition enqueued {Act} (h : handler Act) : list Act :=
  omap (fun e => match e with Enqueue a => Some a | _ => None end) h.

Definition logged {Act} (h : handler Act) : list string :=
  omap (fun e => match e with Log s => Some s | _ => None end) h.

(** ** Lemmas *)

Section queues.
Context {A W : Type}.

Lemma process_queue_cons (u : update A W) q aw :
  process_queue (u :: q) aw = process_queue q (apply_update u aw).
Proof. reflexivity. Qed.

Lemma process_queue_app (q1 q2 : list (update A W)) aw :
  process_queue (q1 ++ q2) aw = process_queue q2 (process_queue q1 aw).
Proof. apply foldl_app. Qed.

(** A replacement at the end of the queue decides the value; the world
    keeps what the earlier updaters did to it. *)
Lemma process_queue_last_replace (q : list (update A W)) v aw :
  process_queue (q ++ [Replace v]) aw = (v, (process_queue q aw).2).
Proof. by rewrite process_queue_app. Qed.
End queues.

Section handlers.
Context {Act : Type}.
Implicit Types h : handler Act.

Lemma propagate_nostop h rest :
  stops h = false -> propagate (h :: rest) = h ++ propagate rest.
Proof. intros Hs. simpl. by rewrite Hs. Qed.

Lemma propagate_stop h rest :
  stops h = true -> propagate (h :: rest) = h.
Proof. intros Hs. simpl. rewrite Hs. apply app_nil_r. Qed.

Lemma enqueued_app h1 h2 : enqueued (h1 ++ h2) = enqueued h1 ++ enqueued h2.
Proof. apply omap_app. Qed.

Lemma logged_app h1 h2 : logged (h1 ++ h2) = logged h1 ++ logged h2.
Proof. apply omap_app. Qed.
End handlers.

End React.

#[export] Hint Rewrite @React.process_queue_app @React.enqueued_app
  @React.logged_app : smartlock.
