(* ===== verification/Browser.v ===== *)
(** * Browser services called by the code

    - [WebStorage]: the part of the [localStorage] API the code calls
      ([getItem], [setItem]), as a typeclass, with its laws in
      [WebStorageLaws]; the theme component is proved against the laws,
      and [gmap string string] implements them.
    - media queries: [window.matchMedia(q).matches] and MUI's
      [useMediaQuery(q)] evaluate a query against the viewport width and
      the system colour preference ([environment]).
    - [icon]: the icon components the views render. *)

From stdpp Require Import base strings gmap numbers.
From S2P Require Import Prelude.

Class WebStorage (St : Type) := {
  getItem : St -> string -> option string;
  setItem : St -> string -> string -> St
}.

Class WebStorageLaws (St : Type) `{!WebStorage St} := {
  getItem_setItem_eq st k v : getItem (setItem st k v) k = Some v;
  getItem_setItem_ne st k k' v : k <> k' -> getItem (setItem st k v) k' = getItem st k'
}.

#[export] Instance gmap_WebStorage : WebStorage (gmap string string) := {|
  getItem st k := st !! k;
  setItem st k v := <[k:=v]> st
|}.

#[export] Instance gmap_WebStorageLaws : WebStorageLaws (gmap string string).
Proof. split; intros; simpl; by simplify_map_eq. Qed.

#[export] Hint Rewrite @getItem_setItem_eq : smartlock.

(** ** Media queries *)

Record environment := mk_env {
  viewport_width : Z;
  prefers_dark : bool
}.

Inductive media_query :=
  | MaxWidth (px : Z)
  | PrefersColorSchemeDark.

Definition matches (env : environment) (q : media_query) : bool :=
  match q with
  | MaxWidth px => bool_decide (viewport_width env <= px)%Z
  | PrefersColorSchemeDark => prefers_dark env
  end.

(** ** Icons *)

Inductive icon :=
  | LockIcon | UnlockIcon | HomeIcon | InfoIcon | SecurityIcon
  | SmartphoneIcon | WifiIcon | BatteryIcon | MenuIcon | CloseIcon.

#[export] Instance icon_eq_dec : EqDecision icon.
Proof. solve_decision. Defined.
