(* ===== verification/Theme.v ===== *)
(** * ThemeProvider (src/src/ThemeContext.js)

    The provider's one hook, [mode], is a string that the code only ever
    sets to ["light"] or ["dark"].  This file models:
    - [initial_mode]: the lazy [useState] initializer (lines 9-14);
    - [toggle_updater] and [toggleTheme]: the functional update passed to
      [setMode], which also writes the new mode to localStorage
      (lines 16-22);
    - [theme_options]: the configuration object passed to [createTheme]
      inside [useMemo] (lines 24-79);
    - [provider_value]: the context value (line 82).
    Against the abstract [Mode] (two values, [flip]) it proves that the
    initializer and the updater only produce mode names, that the updater
    refines [flip] and persists its result, that a reload after a toggle
    reads back the toggled mode, and what the initializer returns for
    each stored value. *)

From stdpp Require Import base strings gmap.
From S2P Require Import Prelude Hooks Browser.

Module Theme.

(** ** Abstract mode *)

Inductive Mode := Light | Dark.

#[export] Instance Mode_eq_dec : EqDecision Mode.
Proof. solve_decision. Defined.

Definition mode_name (m : Mode) : string :=
  match m with Light => "light" | Dark => "dark" end.

Definition flip (m : Mode) : Mode :=
  match m with Light => Dark | Dark => Light end.

(** The strings that name a mode. *)
Definition valid_mode (s : string) : bool := (s === "light") || (s === "dark").

(** The localStorage key the provider reads and writes. *)
Definition theme_key : string := "theme".

Section provider.
Context {St : Type} `{!WebStorage St}.

(** [useState(() => { const savedTheme = localStorage.getItem('theme');
    return savedTheme === 'dark' || (!savedTheme && window.matchMedia(
    '(prefers-color-scheme: dark)').matches) ? 'dark' : 'light'; })] *)
Definition initial_mode (st : St) (env : environment) : string :=
  let savedTheme := getItem st theme_key in
  if opt_strict_eq savedTheme "dark"
     || (negb (truthy savedTheme) && matches env PrefersColorSchemeDark)
  then "dark" else "light".

(** The updater [(prevMode) => { const newMode = prevMode === 'light' ?
    'dark' : 'light'; localStorage.setItem('theme', newMode);
    return newMode; }]. *)
Definition toggle_updater (prevMode : string) (st : St) : string * St :=
  let newMode := if prevMode === "light" then "dark" else "light" in
  (newMode, setItem st theme_key newMode).

Definition toggle_update : React.update string St := React.Updater toggle_updater.

(** [toggleTheme = () => { setMode(updater) }]: a handler of the
    component tree, given the setter of the [mode] hook. *)
Definition toggleTheme {Act} (setMode : React.update string St -> Act)
  : React.handler Act :=
  [React.Enqueue (setMode toggle_update)].
End provider.

(** ** The context value [{ isDarkMode: mode === 'dark', toggleTheme }] *)

Record theme_context (Act : Type) := mk_theme_context {
  ctx_isDarkMode : bool;
  ctx_toggleTheme : React.handler Act
}.
Arguments mk_theme_context {Act} _ _.
Arguments ctx_isDarkMode {Act} _.
Arguments ctx_toggleTheme {Act} _.

Definition provider_value {St Act : Type} `{!WebStorage St} (setMode : React.update string St -> Act)
    (mode : string) : theme_context Act :=
  mk_theme_context (mode === "dark") (toggleTheme setMode).

(** [const ThemeContext = createContext()]: no default value, so a
    component with no provider above it reads [undefined]. *)
Definition context_default {Act : Type} : option (theme_context Act) := None.

(** [useTheme = () => useContext(ThemeContext)]: the value of the nearest
    provider above the caller, if any. *)
Definition useTheme {Act : Type} (nearest_provider : option (theme_context Act))
    : option (theme_context Act) :=
  match nearest_provider with
  | Some v => Some v
  | None => context_default
  end.

(** ** The configuration object passed to [createTheme] *)

Record theme_config := mk_theme_config {
  palette_mode : string;
  primary_main : string;
  secondary_main : string;
  background_default : string;
  background_paper : string;
  text_primary : string;
  text_secondary : string;
  drawer_paper_backgroundColor : string;
  drawer_paper_borderRight : string;
  card_root_backgroundColor : string;
  appbar_root_backgroundColor : string;
  listitem_selected_backgroundColor : string
}.

Definition theme_options (mode : string) : theme_config := {|
  palette_mode := mode;
  primary_main := if mode === "dark" then "#1976d2" else "#1976d2";
  secondary_main := if mode === "dark" then "#dc004e" else "#dc004e";
  background_default := if mode === "dark" then "#121212" else "#f8f9fa";
  background_paper := if mode === "dark" then "#1e1e1e" else "#ffffff";
  text_primary := if mode === "dark" then "#ffffff" else "#333333";
  text_secondary := if mode === "dark" then "#b0b0b0" else "#666666";
  drawer_paper_backgroundColor := if mode === "dark" then "#1a1a1a" else "#f8f9fa";
  drawer_paper_borderRight := if mode === "dark" then "1px solid #333" else "1px solid #e0e0e0";
  card_root_backgroundColor := if mode === "dark" then "#1e1e1e" else "#ffffff";
  appbar_root_backgroundColor := if mode === "dark" then "#1976d2" else "#1976d2";
  listitem_selected_backgroundColor :=
    if mode === "dark" then "rgba(25, 118, 210, 0.16)" else "rgba(25, 118, 210, 0.08)"
|}.

(** ** Properties *)

Lemma valid_mode_spec (s : string) : valid_mode s = true <-> exists m, s = mode_name m.
Proof.
  unfold valid_mode. rewrite orb_true_iff, !strict_eq_spec.
  split; [intros [->| ->]; [exists Light|exists Dark]; done|].
  intros [[] ->]; simpl; auto.
Qed.

Lemma valid_mode_name (m : Mode) : valid_mode (mode_name m) = true.
Proof. by destruct m. Qed.

Lemma mode_name_inj (m1 m2 : Mode) : mode_name m1 = mode_name m2 -> m1 = m2.
Proof. by destruct m1, m2. Qed.

#[export] Hint Resolve valid_mode_name : smartlock.

Section laws.
Context {St : Type} `{!WebStorage St, !WebStorageLaws St}.

(** A mode name found in storage is what the initializer returns. *)
Lemma initial_mode_stored (st : St) env m :
  getItem st theme_key = Some (mode_name m) -> initial_mode st env = mode_name m.
Proof. unfold initial_mode. intros ->. by destruct m. Qed.

(** The updater always returns some mode name and stores it. *)
Lemma toggle_updater_result (prevMode : string) (st : St) :
  exists m, toggle_updater prevMode st = (mode_name m, setItem st theme_key (mode_name m)).
Proof. unfold toggle_updater. destruct (prevMode === "light"); [exists Dark|exists Light]; done. Qed.

(** The initializer always yields a mode name. *)
Lemma initial_mode_result (st : St) env :
  exists m, initial_mode st env = mode_name m.
Proof. unfold initial_mode. destruct (_ || _); [exists Dark|exists Light]; done. Qed.

(** C8: the initial mode is ["dark"] exactly when the stored value is
    ["dark"], or when nothing (or the empty string) is stored and the
    system prefers a dark scheme; any other stored value, ["light"] or
    not, gives ["light"] whatever the system preference. *)
Theorem initial_mode_dark_iff (st : St) env :
  initial_mode st env = "dark" <->
  getItem st theme_key = Some "dark" \/
  ((getItem st theme_key = None \/ getItem st theme_key = Some "")
   /\ prefers_dark env = true).
Proof.
  unfold initial_mode; simpl.
  rewrite <- truthy_false_iff, <- opt_strict_eq_spec.
  destruct (opt_strict_eq _ _), (truthy _), (prefers_dark env); simpl;
    intuition congruence.
Qed.

(** C9: on a mode name, the updater of [toggleTheme] refines [flip]: it
    returns the name of the flipped mode and stores that name under the
    ["theme"] key. *)
Theorem toggle_updater_refines (m : Mode) (st : St) :
  toggle_updater (mode_name m) st =
  (mode_name (flip m), setItem st theme_key (mode_name (flip m))).
Proof. by destruct m. Qed.

(** C10: whatever the previous mode, the updater returns a mode name and
    the storage it leaves holds exactly that name. *)
Theorem toggle_updater_persists (prevMode : string) (st : St) :
  let r := toggle_updater prevMode st in
  valid_mode r.1 = true /\ getItem r.2 theme_key = Some r.1.
Proof.
  destruct (toggle_updater_result prevMode st) as [m ->]; simpl.
  by rewrite getItem_setItem_eq, valid_mode_name.
Qed.

(** C6: round trip through localStorage: re-running the initializer on
    the storage a toggle left (a page reload) gives back the toggled
    mode, whatever the system colour preference. *)
Theorem toggle_reload_roundtrip (prevMode : string) (st : St) env :
  let r := toggle_updater prevMode st in initial_mode r.2 env = r.1.
Proof.
  destruct (toggle_updater_result prevMode st) as [m ->]; simpl.
  by apply initial_mode_stored, getItem_setItem_eq.
Qed.

(** C17: [toggleTheme] uses a functional update, so two calls processed
    in one render batch compose: the mode comes back to where it was and
    the last write to storage is that mode. *)
Theorem toggle_update_twice (m : Mode) (st : St) :
  React.process_queue [toggle_update; toggle_update] (mode_name m, st) =
  (mode_name m,
   setItem (setItem st theme_key (mode_name (flip m))) theme_key (mode_name m)).
Proof. by destruct m. Qed.

(** Any number of toggles in one batch flips the mode that many times. *)
Lemma process_toggles (n : nat) (m : Mode) (st : St) :
  exists st', React.process_queue (repeat toggle_update n) (mode_name m, st) =
              (mode_name (Nat.iter n flip m), st').
Proof.
  revert m st. induction n as [|n IH]; intros m st; [by exists st|].
  destruct (IH (flip m) (setItem st theme_key (mode_name (flip m)))) as [st' Hst].
  exists st'. change (Nat.iter (S n) flip m) with (flip (Nat.iter n flip m)).
  rewrite <- Nat.iter_swap, <- Hst. by destruct m.
Qed.

(** C25: the [mode] hook only ever holds ['light'] or ['dark']: the
    value its initializer computes from any storage and environment, and
    the value after any number of [toggleTheme] updates, is a mode name
    (the code compares [mode] with these two strings only). *)
Theorem mode_hook_type (st : St) (env : environment) (n : nat) :
  valid_mode (React.process_queue (repeat toggle_update n) (initial_mode st env, st)).1 = true.
Proof.
  destruct (initial_mode_result st env) as [m ->].
  destruct (process_toggles n m st) as [st' ->]. apply valid_mode_name.
Qed.
End laws.

(** C21: every value of the configuration written as a conditional
    with two different branches follows the mode: for two different modes
    the palette mode, the background, paper, both text colours, the
    drawer's background and border, the card background and the selected
    list item's background all differ, so the mode can be read back from
    any of them. *)
Theorem theme_options_background_inj (m1 m2 : Mode) :
  m1 <> m2 ->
  let o1 := theme_options (mode_name m1) in
  let o2 := theme_options (mode_name m2) in
  palette_mode o1 <> palette_mode o2 /\
  background_default o1 <> background_default o2 /\
  background_paper o1 <> background_paper o2 /\
  text_primary o1 <> text_primary o2 /\
  text_secondary o1 <> text_secondary o2 /\
  drawer_paper_backgroundColor o1 <> drawer_paper_backgroundColor o2 /\
  drawer_paper_borderRight o1 <> drawer_paper_borderRight o2 /\
  card_root_backgroundColor o1 <> card_root_backgroundColor o2 /\
  listitem_selected_backgroundColor o1 <> listitem_selected_backgroundColor o2.
Proof. destruct m1, m2; intros Hne; try done; simpl; repeat split; discriminate. Qed.

(** C22: the primary, secondary and app bar colours do not depend on the
    mode at all: both branches of their conditionals are the same colour. *)
Theorem theme_options_brand_constant (s1 s2 : string) :
  primary_main (theme_options s1) = primary_main (theme_options s2) /\
  secondary_main (theme_options s1) = secondary_main (theme_options s2) /\
  appbar_root_backgroundColor (theme_options s1) =
    appbar_root_backgroundColor (theme_options s2).
Proof. simpl. by destruct (s1 === "dark"), (s2 === "dark"). Qed.

(** ** Witnesses *)

(** The laws are discharged by the [gmap] implementation of localStorage. *)
Abbreviation demo_storage := (<[theme_key := "blue"]> (∅ : gmap string string)).
Definition demo_env : environment := mk_env 500 true.

Lemma initial_mode_dark_iff_witness :
  initial_mode demo_storage demo_env = "dark" <->
  getItem demo_storage theme_key = Some "dark" \/
  ((getItem demo_storage theme_key = None \/ getItem demo_storage theme_key = Some "")
   /\ prefers_dark demo_env = true).
Proof. apply (initial_mode_dark_iff (St := gmap string string)). Defined.

Lemma toggle_updater_refines_witness :
  toggle_updater (mode_name Light) demo_storage =
  (mode_name (flip Light), setItem demo_storage theme_key (mode_name (flip Light))).
Proof. apply (toggle_updater_refines (St := gmap string string)). Defined.

Lemma toggle_updater_persists_witness :
  let r := toggle_updater "blue" demo_storage in
  valid_mode r.1 = true /\ getItem r.2 theme_key = Some r.1.
Proof. apply (toggle_updater_persists (St := gmap string string)). Defined.

Lemma toggle_reload_roundtrip_witness :
  let r := toggle_updater "light" demo_storage in initial_mode r.2 demo_env = r.1.
Proof. apply (toggle_reload_roundtrip (St := gmap string string)). Defined.

Lemma toggle_update_twice_witness :
  React.process_queue [toggle_update; toggle_update] (mode_name Dark, demo_storage) =
  (mode_name Dark,
   setItem (setItem demo_storage theme_key (mode_name (flip Dark))) theme_key (mode_name Dark)).
Proof. apply (toggle_update_twice (St := gmap string string)). Defined.

Lemma theme_options_background_inj_witness :
  Light <> Dark /\
  let o1 := theme_options (mode_name Light) in
  let o2 := theme_options (mode_name Dark) in
  palette_mode o1 <> palette_mode o2 /\
  background_default o1 <> background_default o2 /\
  background_paper o1 <> background_paper o2 /\
  text_primary o1 <> text_primary o2 /\
  text_secondary o1 <> text_secondary o2 /\
  drawer_paper_backgroundColor o1 <> drawer_paper_backgroundColor o2 /\
  drawer_paper_borderRight o1 <> drawer_paper_borderRight o2 /\
  card_root_backgroundColor o1 <> card_root_backgroundColor o2 /\
  listitem_selected_backgroundColor o1 <> listitem_selected_backgroundColor o2.
Proof. split; [discriminate|]. apply theme_options_background_inj. discriminate. Defined.

Lemma mode_hook_type_witness :
  valid_mode (React.process_queue (repeat toggle_update 3) (initial_mode demo_storage demo_env, demo_storage)).1 = true.
Proof. apply (mode_hook_type (St := gmap string string)). Defined.

End Theme.
