(* ===== verification/Door.v ===== *)
(** * The door control of MainContent (src/src/App.js)

    [MainContent]'s [isDoorLocked] hook (line 144, initially [true]), its
    handler [toggleDoorLock] (lines 152-158), which negates the rendered
    value, enqueues it and logs the intent, and the home page rendered from
    it, [renderHomePage] (lines 161-226).  The theorems show that every
    state-dependent element of the home page reflects the same lock state,
    that the logged intent names the state the next render shows, and that
    the handler reads a snapshot: two calls on the same render flip the
    lock once but log twice. *)

From stdpp Require Import base strings.
From S2P Require Import Prelude Hooks Browser.

Module Door.

(** [`${newState ? 'Locking' : 'Unlocking'} door...`] *)
Definition lock_message (newState : bool) : string :=
  String.append (if newState then "Locking" else "Unlocking") " door...".

(** The home page as rendered: its texts, colours, icon and the click
    handler of the big button. *)
Record home_view (Act : Type) := mk_home_view {
  hv_heading : string;
  hv_button_label : string;
  hv_button_color : string;
  hv_button_hover_color : string;
  hv_start_icon : icon;
  hv_button_onClick : React.handler Act;
  hv_caption : string;
  hv_dot_color : string;
  hv_status_heading : string;
  hv_status_label : string;
  hv_status_color : string
}.
Arguments mk_home_view {Act}.
Arguments hv_heading {Act}. Arguments hv_button_label {Act}.
Arguments hv_button_color {Act}. Arguments hv_button_hover_color {Act}.
Arguments hv_start_icon {Act}. Arguments hv_button_onClick {Act}.
Arguments hv_caption {Act}. Arguments hv_dot_color {Act}.
Arguments hv_status_heading {Act}. Arguments hv_status_label {Act}.
Arguments hv_status_color {Act}.

Section door.
Context {St Act : Type} (setIsDoorLocked : React.update bool St -> Act).

(** [const toggleDoorLock = () => { const newState = !isDoorLocked;
    setIsDoorLocked(newState); console.log(...); }], closed over the
    rendered value of [isDoorLocked]. *)
Definition toggleDoorLock (isDoorLocked : bool) : React.handler Act :=
  let newState := negb isDoorLocked in
  [React.Enqueue (setIsDoorLocked (React.Replace newState));
   React.Log (lock_message newState)].

(** [renderHomePage()] *)
Definition renderHomePage (isDoorLocked : bool) : home_view Act := {|
  hv_heading := "Main Door Access";
  hv_button_label := if isDoorLocked then "LOCKED" else "UNLOCKED";
  hv_button_color := if isDoorLocked then "error.main" else "success.main";
  hv_button_hover_color := if isDoorLocked then "error.dark" else "success.dark";
  hv_start_icon := if isDoorLocked then LockIcon else UnlockIcon;
  hv_button_onClick := toggleDoorLock isDoorLocked;
  hv_caption := String.append "Click to "
                  (String.append (if isDoorLocked then "unlock" else "lock")
                     " the main door");
  hv_dot_color := if isDoorLocked then "error.main" else "success.main";
  hv_status_heading := "Door Status: ";
  hv_status_label := if isDoorLocked then "LOCKED" else "UNLOCKED";
  hv_status_color := if isDoorLocked then "#f44336" else "#4caf50"
|}.
End door.

(** ** Properties *)

(** The texts that [renderHomePage] can show, by lock state. *)
Lemma lock_message_cases (b : bool) :
  lock_message b = if b then "Locking door..." else "Unlocking door...".
Proof. by destruct b. Qed.

(** The intent a line records: it is the locking message exactly when the
    new state is locked. *)
Lemma lock_message_intent (b : bool) : lock_message b === lock_message true = b.
Proof. by destruct b. Qed.

Section door_props.
Context {St Act : Type} (setIsDoorLocked : React.update bool St -> Act).

(** C12: every state-dependent element of the home page shows the same
    lock state: the button and status labels read ["LOCKED"], the icon is
    the closed lock, the button, its hover colour, the status dot and the
    status text are the error (red) colours, and the caption offers to
    unlock, exactly when the door is locked; otherwise all of them show
    the unlocked state. *)
Theorem home_view_reflects_state (b : bool) :
  let v := renderHomePage setIsDoorLocked b in
  (hv_button_label v = "LOCKED" <-> b = true) /\
  hv_status_label v = hv_button_label v /\
  (hv_start_icon v = LockIcon <-> b = true) /\
  (hv_button_color v = "error.main" <-> b = true) /\
  hv_dot_color v = hv_button_color v /\
  (hv_button_hover_color v = "error.dark" <-> b = true) /\
  (hv_status_color v = "#f44336" <-> b = true) /\
  (hv_caption v = "Click to unlock the main door" <-> b = true).
Proof. destruct b; simpl; intuition discriminate. Qed.

(** C11: clicking the button flips what it shows (the spec's interaction
    test): the label rendered from the value the click enqueues differs
    from the label it was clicked on, and the logged intent names the
    state that next render shows. *)
Theorem toggle_flips_label (b : bool) :
  let h := hv_button_onClick (renderHomePage setIsDoorLocked b) in
  React.enqueued h = [setIsDoorLocked (React.Replace (negb b))] /\
  hv_button_label (renderHomePage setIsDoorLocked (negb b)) <>
    hv_button_label (renderHomePage setIsDoorLocked b) /\
  React.logged h =
    [if hv_button_label (renderHomePage setIsDoorLocked (negb b)) === "LOCKED"
     then "Locking door..." else "Unlocking door..."].
Proof. destruct b; simpl; intuition discriminate. Qed.
End door_props.

(** C18: [toggleDoorLock] reads the rendered snapshot of [isDoorLocked]
    and enqueues a replacement value, not an updater: if two calls are
    handled before a re-render (one batch), the hook's queue ends on the
    same value, so the lock flips once while two intents are logged.
    Contrast [Theme.toggle_update_twice]. *)
Theorem toggleDoorLock_batched_twice {St : Type} (b : bool) (st : St) :
  let h := toggleDoorLock id b ++ toggleDoorLock id b in
  React.process_queue (React.enqueued h) (b, st) = (negb b, st) /\
  React.logged h = [lock_message (negb b); lock_message (negb b)].
Proof. by destruct b. Qed.

End Door.
