(* ===== verification/Navigation.v ===== *)
(** * Navigation: NavigationDrawer, the mobile app bar and the instructions
    page (src/src/App.js)

    - [navItems] (lines 25-28) and [drawerWidth] (line 30);
    - [render_nav_item] and [nav_item_onClick]: one rendered navigation
      item and its click handler (lines 47-74);
    - [drawerContent] (lines 32-101): header, items, the theme item with
      its switch (whose [onClick] stops propagation) and the footer;
    - [NavigationDrawer] (lines 103-139): a temporary drawer with an
      [onClose] handler on mobile, a permanent open drawer otherwise;
    - [appBar] (lines 334-351): the mobile app bar with the menu button;
    - [renderInstructionsPage] (lines 229-313): the static instructions.
    The components receive the setters of [MainContent]'s hooks as props,
    as in the code; here they are the section variables [setCurrentPage]
    and [setDrawerOpen].  The theorems show that exactly one item is
    selected when the current page is a navigation id, and how the theme
    item and the app bar follow the state. *)

From stdpp Require Import base strings list numbers.
From S2P Require Import Prelude Hooks Browser Theme.

Module Navigation.

Record nav_item := mk_nav_item {
  item_id : string;
  item_label : string;
  item_icon : icon
}.

Definition navItems : list nav_item :=
  [mk_nav_item "home" "Door Control" LockIcon;
   mk_nav_item "instructions" "How to Use" InfoIcon].

Definition drawerWidth : Z := 240.

(** The ids of the navigation items, the pages the drawer can select. *)
Definition nav_ids : list string := item_id <$> navItems.

Definition is_nav_id (p : string) : bool := existsb (fun i => p === i) nav_ids.

(** ** Views *)

Record nav_item_view (Act : Type) := mk_nav_item_view {
  niv_key : string;
  niv_label : string;
  niv_selected : bool;
  niv_border_left : string;
  niv_icon : icon;
  niv_icon_color : string;
  niv_font_weight : string;
  niv_onClick : React.handler Act
}.

Record drawer_content (Act : Type) := mk_drawer_content {
  dc_title : string;
  dc_subtitle : string;
  dc_items : list (nav_item_view Act);
  dc_theme_label : string;
  dc_theme_item_onClick : React.handler Act;
  dc_switch_checked : bool;
  dc_switch_onChange : React.handler Act;
  dc_switch_onClick : React.handler Act;
  dc_footer : string
}.

Inductive drawer_variant := Temporary | Permanent.

Record drawer_view (Act : Type) := mk_drawer_view {
  dv_variant : drawer_variant;
  dv_width : Z;
  dv_open : bool;
  dv_onClose : option (React.handler Act);
  dv_content : drawer_content Act
}.

Record app_bar_view (Act : Type) := mk_app_bar_view {
  ab_icon : icon;
  ab_menu_onClick : React.handler Act;
  ab_title : string
}.

Arguments niv_key {Act}. Arguments niv_label {Act}. Arguments niv_selected {Act}.
Arguments niv_border_left {Act}. Arguments niv_icon {Act}.
Arguments niv_icon_color {Act}. Arguments niv_font_weight {Act}.
Arguments niv_onClick {Act}.
Arguments dc_title {Act}. Arguments dc_subtitle {Act}. Arguments dc_items {Act}.
Arguments dc_theme_label {Act}. Arguments dc_theme_item_onClick {Act}.
Arguments dc_switch_checked {Act}. Arguments dc_switch_onChange {Act}.
Arguments dc_switch_onClick {Act}. Arguments dc_footer {Act}.
Arguments dv_variant {Act}. Arguments dv_width {Act}. Arguments dv_open {Act}.
Arguments dv_onClose {Act}. Arguments dv_content {Act}.
Arguments ab_icon {Act}. Arguments ab_menu_onClick {Act}. Arguments ab_title {Act}.

Section nav.
Context {St Act : Type}
        (setCurrentPage : React.update string St -> Act)
        (setDrawerOpen : React.update bool St -> Act).

(** [onClick={() => { setCurrentPage(item.id);
    if (isMobile) setDrawerOpen(false); }}] *)
Definition nav_item_onClick (isMobile : bool) (item : nav_item) : React.handler Act :=
  React.Enqueue (setCurrentPage (React.Replace (item_id item)))
    :: (if isMobile then [React.Enqueue (setDrawerOpen (React.Replace false))] else []).

Definition render_nav_item (currentPage : string) (isMobile : bool)
    (item : nav_item) : nav_item_view Act :=
  let selected := currentPage === item_id item in {|
  niv_key := item_id item;
  niv_label := item_label item;
  niv_selected := selected;
  niv_border_left := if selected then "4px solid" else "none";
  niv_icon := item_icon item;
  niv_icon_color := if selected then "primary.main" else "inherit";
  niv_font_weight := if selected then "bold" else "normal";
  niv_onClick := nav_item_onClick isMobile item
|}.

(** [drawerContent], with [{ isDarkMode, toggleTheme } = useTheme()]. *)
Definition drawerContent (ctx : Theme.theme_context Act) (currentPage : string)
    (isMobile : bool) : drawer_content Act := {|
  dc_title := "Access Control";
  dc_subtitle := "Sample Website for IETP";
  dc_items := render_nav_item currentPage isMobile <$> navItems;
  dc_theme_label := if Theme.ctx_isDarkMode ctx then "Light Mode" else "Dark Mode";
  dc_theme_item_onClick := Theme.ctx_toggleTheme ctx;
  dc_switch_checked := Theme.ctx_isDarkMode ctx;
  dc_switch_onChange := Theme.ctx_toggleTheme ctx;
  dc_switch_onClick := [React.StopPropagation];
  dc_footer := "IETP Group 16"
|}.

Definition NavigationDrawer (ctx : Theme.theme_context Act) (currentPage : string)
    (isMobile drawerOpen : bool) : drawer_view Act :=
  let content := drawerContent ctx currentPage isMobile in
  if isMobile then {|
    dv_variant := Temporary;
    dv_width := drawerWidth;
    dv_open := drawerOpen;
    dv_onClose := Some [React.Enqueue (setDrawerOpen (React.Replace false))];
    dv_content := content |}
  else {|
    dv_variant := Permanent;
    dv_width := drawerWidth;
    dv_open := true;
    dv_onClose := None;
    dv_content := content |}.

(** [{isMobile && (<AppBar> ... </AppBar>)}] *)
Definition appBar (isMobile drawerOpen : bool) (currentPage : string)
    : option (app_bar_view Act) :=
  if isMobile then Some {|
    ab_icon := if drawerOpen then CloseIcon else MenuIcon;
    ab_menu_onClick := [React.Enqueue (setDrawerOpen (React.Replace (negb drawerOpen)))];
    ab_title := if currentPage === "home" then "Door Control" else "Instructions" |}
  else None.
End nav.

(** ** The instructions page *)

Record instruction_entry := mk_instruction_entry {
  ie_icon : icon;
  ie_primary : string;
  ie_secondary : string
}.

Record help_section := mk_help_section {
  hs_title : string;
  hs_lines : list string
}.

Record instructions_view := mk_instructions_view {
  iv_heading : string;
  iv_basic_title : string;
  iv_basic_entries : list instruction_entry;
  iv_trouble_title : string;
  iv_trouble_sections : list help_section
}.

Definition renderInstructionsPage : instructions_view := {|
  iv_heading := "How to Use the Access System";
  iv_basic_title := "Basic Operation";
  iv_basic_entries :=
    [mk_instruction_entry LockIcon "Single Button Control"
       "Click the large button to toggle lock/unlock";
     mk_instruction_entry SmartphoneIcon "Mobile Access"
       "Access your door from anywhere";
     mk_instruction_entry WifiIcon "Internet Required"
       "Stable connection needed for remote access"];
  iv_trouble_title := "Troubleshooting";
  iv_trouble_sections :=
    [mk_help_section "Door not responding?"
       ["1. Check internet connection"; "2. Verify lock has power"; "3. Refresh the app"];
     mk_help_section "Need help?"
       ["Contact support: IETP16@gmail.com"; "Emergency: 0911121314"]]
|}.

(** ** Properties *)

Section nav_props.
Context {St Act : Type}
        (setCurrentPage : React.update string St -> Act)
        (setDrawerOpen : React.update bool St -> Act).

(** C19: the drawer highlights exactly one item when the current page is
    a navigation id (the item with that id), and none for any other
    value of [currentPage]. *)
Theorem selected_items_count (ctx : Theme.theme_context Act) (currentPage : string)
    (isMobile : bool) :
  let items := dc_items (drawerContent setCurrentPage setDrawerOpen ctx currentPage isMobile) in
  length (List.filter niv_selected items) = (if is_nav_id currentPage then 1 else 0) /\
  Forall (fun i => niv_selected i = true -> niv_key i = currentPage) items.
Proof.
  split.
  - unfold is_nav_id; simpl.
    destruct (strict_eq_reflect currentPage "home"),
      (strict_eq_reflect currentPage "instructions"); subst; done.
  - simpl. repeat constructor; simpl; intros H%strict_eq_spec; congruence.
Qed.

(** C20: the mobile app bar's title agrees with the selected item's
    label on the home page ("Door Control") but not on the instructions
    page, titled "Instructions" where the drawer says "How to Use". *)
Theorem appBar_title_vs_label (drawerOpen : bool) :
  Forall (fun item =>
    (option_map ab_title (appBar setDrawerOpen true drawerOpen (item_id item))
       = Some (item_label item)) <-> item_id item = "home") navItems.
Proof. repeat constructor; simpl; intuition discriminate. Qed.
End nav_props.

End Navigation.
