(* ===== verification/Spec.v ===== *)
(** * Abstract specification of the interface

    What the interface promises, in the spec's terms and without React:
    a lock flag (initially locked, not persisted), one of two pages, a
    two-valued theme, the mobile drawer flag, and the history of lock
    intents sent to the (stub) backend.  Each user operation has an
    enabling condition (its control is on screen) and an effect.  The
    file [App] proves that the React program refines this machine. *)

From stdpp Require Import base list.
From S2P Require Import Prelude Theme.

Module Spec.

Inductive page := Home | Instructions.

#[export] Instance page_eq_dec : EqDecision page.
Proof. solve_decision. Defined.

Record state := mk_state {
  locked : bool;
  page_shown : page;
  theme : Theme.Mode;
  drawer_open : bool;
  intents : list bool
}.

Inductive op :=
  | ToggleLock
  | Navigate (p : page)
  | ToggleTheme
  | ToggleDrawer
  | CloseDrawer.

(** A page load: locked, home page, drawer closed, no intents yet. *)
Definition init (t : Theme.Mode) : state :=
  mk_state true Home t false [].

(** Whether the control of an operation is on screen: the lock button on
    the home page; the drawer's controls on desktop or in an open mobile
    drawer; the menu button on mobile; closing an open mobile drawer. *)
Definition enabled (mobile : bool) (s : state) (o : op) : bool :=
  match o with
  | ToggleLock => bool_decide (page_shown s = Home)
  | Navigate _ | ToggleTheme => negb mobile || drawer_open s
  | ToggleDrawer => mobile
  | CloseDrawer => mobile && drawer_open s
  end.

Definition apply (mobile : bool) (s : state) (o : op) : state :=
  match o with
  | ToggleLock =>
      mk_state (negb (locked s)) (page_shown s) (theme s) (drawer_open s)
        (intents s ++ [negb (locked s)])
  | Navigate p =>
      mk_state (locked s) p (theme s)
        (if mobile then false else drawer_open s) (intents s)
  | ToggleTheme =>
      mk_state (locked s) (page_shown s) (Theme.flip (theme s)) (drawer_open s) (intents s)
  | ToggleDrawer =>
      mk_state (locked s) (page_shown s) (theme s) (negb (drawer_open s)) (intents s)
  | CloseDrawer =>
      mk_state (locked s) (page_shown s) (theme s) false (intents s)
  end.

End Spec.
