(* ===== verification/App.v ===== *)
(** * The application as a state machine (src/src/App.js, ThemeContext.js)

    [App] renders [ThemeProvider] around [MainContent] (App.js lines
    384-390).  The state of the running page is a [world]: the four
    [useState] hooks (ThemeProvider's [mode]; MainContent's
    [isDoorLocked], [currentPage], [drawerOpen]), localStorage, the console
    and the environment the media queries read.  The hook setters handed
    to the components are the constructors of [act].

    One UI step: render the world ([render]); find the listeners on the
    propagation paths of the event in that view ([event_paths]; an event
    whose target is not on screen has none); run them ([React.dispatch_native]);
    append their console lines; then process each hook's queue in order
    ([commit]), ThemeProvider's first, threading localStorage through the
    updaters.  The environment can also change the viewport, the colour
    preference, or reload the page.

    Proved here: the functional behaviour of each UI event on every
    branch (including the events whose target is not rendered), the
    invariants of every reachable world (the mode is a mode name, the page
    a navigation id, a stored mode name is the displayed mode, the last
    console line names the current lock state), and the refinement of the
    whole machine by an abstract specification of the interface
    ([Spec]). *)

From stdpp Require Import base strings gmap list numbers.
From S2P Require Import Prelude Hooks Browser Theme Door Navigation Spec.

Module App.

Abbreviation storage := (gmap string string).

(** The setters of the four [useState] hooks. *)
Inductive act :=
  | SetMode (u : React.update string storage)
  | SetIsDoorLocked (u : React.update bool storage)
  | SetCurrentPage (u : React.update string storage)
  | SetDrawerOpen (u : React.update bool storage).

Record world := mk_world {
  w_storage : storage;
  w_env : environment;
  w_console : list string;
  w_mode : string;
  w_isDoorLocked : bool;
  w_currentPage : string;
  w_drawerOpen : bool
}.

(** [useMediaQuery('(max-width:768px)')], line 148. *)
Definition mobile_query : media_query := MaxWidth 768.

Definition isMobile (w : world) : bool := matches (w_env w) mobile_query.

(** ** Rendering *)

Inductive page_view :=
  | HomePage (v : Door.home_view act)
  | InstructionsPage (v : Navigation.instructions_view).

Record view := mk_view {
  v_drawer : Navigation.drawer_view act;
  v_app_bar : option (Navigation.app_bar_view act);
  v_page : page_view;
  v_footer : string
}.

(** [MainContent]'s render (lines 315-381), given its hooks, [isMobile]
    and the theme context. *)
Definition MainContent (ctx : Theme.theme_context act) (isDoorLocked : bool)
    (currentPage : string) (drawerOpen isMobile : bool) : view := {|
  v_drawer := Navigation.NavigationDrawer SetCurrentPage SetDrawerOpen
                ctx currentPage isMobile drawerOpen;
  v_app_bar := Navigation.appBar SetDrawerOpen isMobile drawerOpen currentPage;
  v_page := if currentPage === "home"
            then HomePage (Door.renderHomePage SetIsDoorLocked isDoorLocked)
            else InstructionsPage Navigation.renderInstructionsPage;
  v_footer := "Secure & Reliable"
|}.

(** [<ThemeProvider><MainContent /></ThemeProvider>]: the provider's value
    is computed from its [mode] hook. *)
Definition render (w : world) : view :=
  MainContent (Theme.provider_value SetMode (w_mode w))
    (w_isDoorLocked w) (w_currentPage w) (w_drawerOpen w) (isMobile w).

(** ** The component tree and its render errors *)

(** Rendering throws when a component destructures the context value and
    there is no provider above it ([undefined] has no properties). *)
Inductive render_error :=
  | DestructureUndefined (component : string).

Inductive tree :=
  | ThemeProviderNode (child : tree)
  | MainContentNode.

(** Render a tree under the nearest provider's value: a [ThemeProvider]
    provides the value computed from its [mode] hook; [MainContent]
    destructures [useTheme()] (line 149) before rendering.  The
    [NavigationDrawer] it renders destructures [useTheme()] too (line 23),
    under the same provider, so that call fails exactly when
    [MainContent]'s has already failed and is not a separate case. *)
Fixpoint render_tree (provided : option (Theme.theme_context act)) (w : world)
    (t : tree) : view + render_error :=
  match t with
  | ThemeProviderNode child =>
      render_tree (Some (Theme.provider_value SetMode (w_mode w))) w child
  | MainContentNode =>
      match Theme.useTheme provided with
      | Some ctx => inl (MainContent ctx (w_isDoorLocked w) (w_currentPage w)
                          (w_drawerOpen w) (isMobile w))
      | None => inr (DestructureUndefined "MainContent")
      end
  end.

(** [function App() { return (<ThemeProvider><MainContent /></ThemeProvider>); }] *)
Definition App_tree : tree := ThemeProviderNode MainContentNode.

(** The drawer's content is on screen (permanent drawer, or open
    temporary drawer). *)
Definition drawer_shown (w : world) : bool := if isMobile w then w_drawerOpen w else true.

(** ** Events *)

Inductive ui_event :=
  | ClickDoorButton
  | ClickNavItem (id : string)
  | ClickThemeItem
  | ClickThemeSwitch
  | ClickMenuButton
  | CloseDrawer.

(** The listeners each event reaches in a rendered view, one path per
    synthetic event, target first.  The drawer's content takes clicks
    when the drawer is open (the permanent drawer always is).  A click on
    the switch is a [click] (switch root, then the theme item) followed by
    a [change] (the switch input). *)
Definition event_paths (v : view) (e : ui_event)
    : option (list (list (React.handler act))) :=
  let d := v_drawer v in
  let c := Navigation.dv_content d in
  match e with
  | ClickDoorButton =>
      match v_page v with
      | HomePage hv => Some [[Door.hv_button_onClick hv]]
      | InstructionsPage _ => None
      end
  | ClickNavItem id =>
      if Navigation.dv_open d then
        match list_find (fun i => Navigation.niv_key i = id) (Navigation.dc_items c) with
        | Some (_, i) => Some [[Navigation.niv_onClick i]]
        | None => None
        end
      else None
  | ClickThemeItem =>
      if Navigation.dv_open d then Some [[Navigation.dc_theme_item_onClick c]] else None
  | ClickThemeSwitch =>
      if Navigation.dv_open d then
        Some [[Navigation.dc_switch_onClick c; Navigation.dc_theme_item_onClick c];
              [Navigation.dc_switch_onChange c]]
      else None
  | ClickMenuButton =>
      match v_app_bar v with
      | Some ab => Some [[Navigation.ab_menu_onClick ab]]
      | None => None
      end
  | CloseDrawer =>
      if Navigation.dv_open d then
        match Navigation.dv_onClose d with
        | Some h => Some [[h]]
        | None => None
        end
      else None
  end.

(** ** Commit *)

Definition mode_updates (q : list act) : list (React.update string storage) :=
  omap (fun a => match a with SetMode u => Some u | _ => None end) q.
Definition door_updates (q : list act) : list (React.update bool storage) :=
  omap (fun a => match a with SetIsDoorLocked u => Some u | _ => None end) q.
Definition page_updates (q : list act) : list (React.update string storage) :=
  omap (fun a => match a with SetCurrentPage u => Some u | _ => None end) q.
Definition drawer_updates (q : list act) : list (React.update bool storage) :=
  omap (fun a => match a with SetDrawerOpen u => Some u | _ => None end) q.

(** The next render: each hook processes its queue, in component order. *)
Definition commit (w : world) (q : list act) : world :=
  let r1 := React.process_queue (mode_updates q) (w_mode w, w_storage w) in
  let r2 := React.process_queue (door_updates q) (w_isDoorLocked w, r1.2) in
  let r3 := React.process_queue (page_updates q) (w_currentPage w, r2.2) in
  let r4 := React.process_queue (drawer_updates q) (w_drawerOpen w, r3.2) in
  {| w_storage := r4.2;
     w_env := w_env w;
     w_console := w_console w;
     w_mode := r1.1;
     w_isDoorLocked := r2.1;
     w_currentPage := r3.1;
     w_drawerOpen := r4.1 |}.

(** Run a handler body: console lines are written at once, hook updates
    wait for the commit. *)
Definition run_handler (w : world) (h : React.handler act) : world :=
  commit {| w_storage := w_storage w;
            w_env := w_env w;
            w_console := w_console w ++ React.logged h;
            w_mode := w_mode w;
            w_isDoorLocked := w_isDoorLocked w;
            w_currentPage := w_currentPage w;
            w_drawerOpen := w_drawerOpen w |}
         (React.enqueued h).

Definition dispatch (w : world) (e : ui_event) : option world :=
  paths ← event_paths (render w) e;
  Some (run_handler w (React.dispatch_native paths)).

(** ** Page loads and the environment *)

(** A page load: every hook runs its initializer; localStorage and the
    environment persist, the console starts empty. *)
Definition initial_world (st : storage) (env : environment) : world := {|
  w_storage := st;
  w_env := env;
  w_console := [];
  w_mode := Theme.initial_mode st env;
  w_isDoorLocked := true;
  w_currentPage := "home";
  w_drawerOpen := false
|}.

Definition reload (w : world) : world := initial_world (w_storage w) (w_env w).

Definition set_env (w : world) (env : environment) : world := {|
  w_storage := w_storage w;
  w_env := env;
  w_console := w_console w;
  w_mode := w_mode w;
  w_isDoorLocked := w_isDoorLocked w;
  w_currentPage := w_currentPage w;
  w_drawerOpen := w_drawerOpen w
|}.

Inductive step : world -> world -> Prop :=
  | step_ui w e w' : dispatch w e = Some w' -> step w w'
  | step_env w env : step w (set_env w env)
  | step_reload w : step w (reload w).

Inductive reachable : world -> Prop :=
  | reachable_init st env : reachable (initial_world st env)
  | reachable_step w w' : reachable w -> step w w' -> reachable w'.

(** ** Functional behaviour of the UI events *)

(** Whether the drawer's content is on screen and takes clicks. *)
Lemma render_drawer_open (w : world) :
  Navigation.dv_open (v_drawer (render w)) = if isMobile w then w_drawerOpen w else true.
Proof. unfold render, MainContent, Navigation.NavigationDrawer. by destruct (isMobile w). Qed.

Lemma render_onClose (w : world) :
  Navigation.dv_onClose (v_drawer (render w)) =
  if isMobile w then Some [React.Enqueue (SetDrawerOpen (React.Replace false))] else None.
Proof. unfold render, MainContent, Navigation.NavigationDrawer. by destruct (isMobile w). Qed.

(** Split a dispatch on the layout (mobile or not) and the drawer flag. *)
Ltac dispatch_cases w :=
  destruct w as [st env con mode locked page drawer];
  unfold drawer_shown, dispatch, event_paths, render, MainContent,
    Navigation.NavigationDrawer, Navigation.appBar, isMobile;
  destruct (matches _ mobile_query), drawer; simpl.

(** Compute the commit of a handler's updates. *)
Ltac commit_simpl :=
  unfold run_handler, commit; simpl; rewrite ?app_nil_r.

(** C4: clicking the door button, which is on screen exactly when the
    current page is ["home"], flips [isDoorLocked] and appends the intent
    for the new state to the console, and changes nothing else; on the
    instructions page there is no button and nothing happens. *)
Theorem dispatch_door_button (w : world) :
  dispatch w ClickDoorButton =
  if w_currentPage w === "home" then
    Some {| w_storage := w_storage w;
            w_env := w_env w;
            w_console := w_console w ++ [Door.lock_message (negb (w_isDoorLocked w))];
            w_mode := w_mode w;
            w_isDoorLocked := negb (w_isDoorLocked w);
            w_currentPage := w_currentPage w;
            w_drawerOpen := w_drawerOpen w |}
  else None.
Proof.
  unfold dispatch, event_paths, render, MainContent.
  by destruct (w_currentPage w === "home").
Qed.

(** C3: both theme controls of the drawer (the theme item, and the
    switch inside it, whose click handler stops propagation before the
    item's) run [toggleTheme] exactly once: the mode becomes what the
    updater computes from the committed mode and localStorage gets the new
    mode; nothing else changes.  When the drawer is closed on mobile
    neither control is reachable. *)
Theorem dispatch_theme_controls (w : world) :
  let r := Theme.toggle_updater (w_mode w) (w_storage w) in
  let w' := {| w_storage := r.2;
               w_env := w_env w;
               w_console := w_console w;
               w_mode := r.1;
               w_isDoorLocked := w_isDoorLocked w;
               w_currentPage := w_currentPage w;
               w_drawerOpen := w_drawerOpen w |} in
  dispatch w ClickThemeItem = (if drawer_shown w then Some w' else None) /\
  dispatch w ClickThemeSwitch = (if drawer_shown w then Some w' else None).
Proof.
  dispatch_cases w; commit_simpl; split; reflexivity.
Qed.

(** C7: clicking a navigation item selects its page and, on mobile,
    closes the drawer (on desktop the drawer flag is left as it is);
    only the two navigation ids have an item, and only an open drawer
    takes the click. *)
Theorem dispatch_nav_item (w : world) (id : string) :
  dispatch w (ClickNavItem id) =
  if drawer_shown w && Navigation.is_nav_id id then
    Some {| w_storage := w_storage w;
            w_env := w_env w;
            w_console := w_console w;
            w_mode := w_mode w;
            w_isDoorLocked := w_isDoorLocked w;
            w_currentPage := id;
            w_drawerOpen := if isMobile w then false else w_drawerOpen w |}
  else None.
Proof.
  dispatch_cases w; unfold Navigation.is_nav_id; simpl; repeat case_decide; subst;
    simpl; commit_simpl; try reflexivity;
    by rewrite (strict_eq_neq id "home"), (strict_eq_neq id "instructions") by congruence.
Qed.

(** C15: the menu button exists only on mobile, and toggles the drawer
    from the rendered value of [drawerOpen]. *)
Theorem dispatch_menu_button (w : world) :
  dispatch w ClickMenuButton =
  if isMobile w then
    Some {| w_storage := w_storage w;
            w_env := w_env w;
            w_console := w_console w;
            w_mode := w_mode w;
            w_isDoorLocked := w_isDoorLocked w;
            w_currentPage := w_currentPage w;
            w_drawerOpen := negb (w_drawerOpen w) |}
  else None.
Proof.
  dispatch_cases w; by commit_simpl.
Qed.

(** C16: closing the drawer (backdrop click or Escape) is possible only
    for the open temporary drawer of the mobile layout, and closes it. *)
Theorem dispatch_close_drawer (w : world) :
  dispatch w CloseDrawer =
  if isMobile w && w_drawerOpen w then
    Some {| w_storage := w_storage w;
            w_env := w_env w;
            w_console := w_console w;
            w_mode := w_mode w;
            w_isDoorLocked := w_isDoorLocked w;
            w_currentPage := w_currentPage w;
            w_drawerOpen := false |}
  else None.
Proof.
  dispatch_cases w; by commit_simpl.
Qed.

(** ** Invariants of the reachable worlds *)

(** Induction on reachability: a reload is a fresh page load, so an
    invariant needs the initial worlds, the UI steps and the environment
    changes. *)
Lemma reachable_invariant (P : world -> Prop) :
  (forall st env, P (initial_world st env)) ->
  (forall w e w', P w -> dispatch w e = Some w' -> P w') ->
  (forall w env, P w -> P (set_env w env)) ->
  forall w, reachable w -> P w.
Proof.
  intros Hinit Hui Henv w Hr. induction Hr as [st env|w w' _ IH Hs]; [done|].
  destruct Hs as [w e w' Hd|w env|w]; eauto.
Qed.

(** Compute a dispatch that succeeded, in hypothesis [H], into the
    fields of the resulting world. *)
Ltac dispatch_in H w :=
  destruct w as [st env con mode locked page drawer]; revert H;
  unfold drawer_shown, dispatch, event_paths, render, MainContent,
    Navigation.NavigationDrawer, Navigation.appBar, isMobile;
  destruct (matches _ mobile_query), drawer; simpl;
  repeat case_decide; subst; try destruct (page === "home"); simpl;
  commit_simpl; intros H; simplify_eq; simpl in *.

(** The well-formedness of a world: the mode is a mode name and the page
    a navigation id. *)
Definition wf (w : world) : Prop :=
  Theme.valid_mode (w_mode w) = true /\ Navigation.is_nav_id (w_currentPage w) = true.

Lemma wf_initial st env : wf (initial_world st env).
Proof.
  split; [|done]. simpl. unfold Theme.initial_mode, Theme.valid_mode.
  repeat case_match; done.
Qed.

Lemma wf_dispatch (w : world) (e : ui_event) (w' : world) :
  wf w -> dispatch w e = Some w' -> wf w'.
Proof.
  intros [Hm Hp] Hd. unfold wf in *. destruct e; dispatch_in Hd w; auto.
  all: split; [by destruct (mode === "light")|done].
Qed.

Lemma wf_reachable (w : world) : reachable w -> wf w.
Proof.
  revert w. apply reachable_invariant; [apply wf_initial|apply wf_dispatch|done].
Qed.

(** A mode name stored under the theme key is the mode on screen. *)
Definition theme_synced (w : world) : Prop :=
  forall m, getItem (w_storage w) Theme.theme_key = Some (Theme.mode_name m) ->
            w_mode w = Theme.mode_name m.

Lemma synced_reachable (w : world) : reachable w -> theme_synced w.
Proof.
  revert w. apply reachable_invariant; [| |done].
  - intros st env m. apply Theme.initial_mode_stored.
  - intros w e w' Hs Hd. unfold theme_synced in *. destruct e; dispatch_in Hd w; auto.
    all: intros m Hm; by simplify_map_eq.
Qed.

(** The last console line, if any, is the intent for the current lock
    state. *)
Definition console_tracks_door (w : world) : Prop :=
  list.last (w_console w) = None \/
  list.last (w_console w) = Some (Door.lock_message (w_isDoorLocked w)).

Lemma console_dispatch (w : world) (e : ui_event) (w' : world) :
  console_tracks_door w -> dispatch w e = Some w' -> console_tracks_door w'.
Proof.
  intros Hc Hd. unfold console_tracks_door in *. destruct e; dispatch_in Hd w; auto.
  all: right; by autorewrite with smartlock.
Qed.

Lemma console_reachable (w : world) : reachable w -> console_tracks_door w.
Proof.
  revert w. apply reachable_invariant; [by left|apply console_dispatch|done].
Qed.

(** C2: the invariants of every reachable world: the theme mode is
    ["light"] or ["dark"], the current page is a navigation id, a mode
    name stored in localStorage is the mode on screen, and the last
    console line is the intent for the current lock state. *)
Theorem reachable_invariants (w : world) :
  reachable w -> wf w /\ theme_synced w /\ console_tracks_door w.
Proof.
  intros Hr. split; [by apply wf_reachable|].
  split; [by apply synced_reachable|by apply console_reachable].
Qed.

(** ** Refinement of the abstract specification *)

Definition abs_page (p : string) : Spec.page :=
  if p === "home" then Spec.Home else Spec.Instructions.

Definition abs_mode (mode : string) : Theme.Mode :=
  if mode === "dark" then Theme.Dark else Theme.Light.

(** The abstraction of a world: the hooks, and the console read as the
    list of lock intents. *)
Definition abs (w : world) : Spec.state := {|
  Spec.locked := w_isDoorLocked w;
  Spec.page_shown := abs_page (w_currentPage w);
  Spec.theme := abs_mode (w_mode w);
  Spec.drawer_open := w_drawerOpen w;
  Spec.intents := (fun l => l === Door.lock_message true) <$> w_console w
|}.

(** The operation a UI event requests; clicks on an id that has no
    navigation item request nothing. *)
Definition abs_event (e : ui_event) : option Spec.op :=
  match e with
  | ClickDoorButton => Some Spec.ToggleLock
  | ClickNavItem id =>
      if id === "home" then Some (Spec.Navigate Spec.Home)
      else if id === "instructions" then Some (Spec.Navigate Spec.Instructions)
      else None
  | ClickThemeItem | ClickThemeSwitch => Some Spec.ToggleTheme
  | ClickMenuButton => Some Spec.ToggleDrawer
  | CloseDrawer => Some Spec.CloseDrawer
  end.

Lemma abs_mode_name (m : Theme.Mode) : abs_mode (Theme.mode_name m) = m.
Proof. by destruct m. Qed.

Lemma wf_cases (w : world) :
  wf w ->
  (exists m, w_mode w = Theme.mode_name m) /\
  (w_currentPage w = "home" \/ w_currentPage w = "instructions").
Proof.
  intros [Hm Hp]. apply Theme.valid_mode_spec in Hm. split; [done|].
  unfold Navigation.is_nav_id in Hp; simpl in Hp.
  destruct (strict_eq_reflect (w_currentPage w) "home"); [by left|].
  destruct (strict_eq_reflect (w_currentPage w) "instructions"); [by right|done].
Qed.

(** C1: the program refines the abstract specification: from every
    reachable world, a UI event whose operation is enabled in the
    abstract state succeeds and its result abstracts to the operation's
    effect; an event whose operation is disabled, or that requests no
    operation, does nothing. *)
Theorem dispatch_refines (w : world) (e : ui_event) :
  reachable w ->
  match abs_event e with
  | None => dispatch w e = None
  | Some o =>
      match dispatch w e with
      | Some w' => Spec.enabled (isMobile w) (abs w) o = true /\
                   abs w' = Spec.apply (isMobile w) (abs w) o
      | None => Spec.enabled (isMobile w) (abs w) o = false
      end
  end.
Proof.
  intros Hr. destruct (wf_cases w (wf_reachable w Hr)) as [[m Hm] Hp].
  destruct w as [st env con mode locked page drawer]; simpl in Hm, Hp; subst mode.
  destruct Hp as [->| ->]; destruct e; unfold abs_event;
    unfold abs, abs_page, drawer_shown, dispatch, event_paths, render, MainContent,
      Navigation.NavigationDrawer, Navigation.appBar, isMobile;
    destruct (matches _ mobile_query), drawer; simpl;
    repeat case_decide; subst; simpl; commit_simpl.
  all: try (split; [reflexivity|]);
    rewrite ?fmap_app; simpl; rewrite ?Door.lock_message_intent; destruct m; try reflexivity;
    rewrite ?(strict_eq_neq id "home"), ?(strict_eq_neq id "instructions") by congruence;
    try reflexivity; by destruct (id === "home"), (id === "instructions").
Qed.

(** ** Observable consequences *)

Definition is_home_page (p : page_view) : bool :=
  match p with HomePage _ => true | InstructionsPage _ => false end.

(** C13: in every reachable world exactly one page is on screen, the
    home page exactly when [currentPage] is ["home"], and exactly one
    navigation item is marked selected: the one of the page shown. *)
Theorem reachable_one_page_selected (w : world) :
  reachable w ->
  let v := render w in
  (is_home_page (v_page v) = true <-> w_currentPage w = "home") /\
  List.filter Navigation.niv_selected (Navigation.dc_items (Navigation.dv_content (v_drawer v)))
    = List.filter (fun i => Navigation.niv_key i === w_currentPage w)
        (Navigation.dc_items (Navigation.dv_content (v_drawer v))) /\
  length (List.filter Navigation.niv_selected
            (Navigation.dc_items (Navigation.dv_content (v_drawer v)))) = 1.
Proof.
  intros Hr. destruct (wf_cases w (wf_reachable w Hr)) as [_ Hp].
  destruct w as [st env con mode locked page drawer]; simpl in Hp.
  unfold render, MainContent, Navigation.NavigationDrawer, isMobile.
  destruct (matches _ mobile_query);
    destruct Hp as [->| ->]; simpl; repeat case_decide; intuition congruence.
Qed.

(** C14: the layout switches at 768 CSS pixels: at or below that width
    the drawer is temporary, shown only when [drawerOpen], and the app bar
    with the menu button is rendered; above it the drawer is permanent and
    always shown, and there is no app bar. *)
Theorem layout_breakpoint (w : world) :
  let v := render w in
  (Navigation.dv_variant (v_drawer v) = Navigation.Temporary <->
     (viewport_width (w_env w) <= 768)%Z) /\
  (is_Some (v_app_bar v) <-> (viewport_width (w_env w) <= 768)%Z) /\
  Navigation.dv_open (v_drawer v) =
    (if bool_decide (viewport_width (w_env w) <= 768)%Z then w_drawerOpen w else true).
Proof.
  unfold render, MainContent, Navigation.NavigationDrawer, Navigation.appBar,
    isMobile; simpl.
  case_bool_decide as Hw; simpl; split_and!; split; intros;
    try done; try by destruct Hw.
Qed.

(** C5: toggling the theme with the drawer's switch flips the theme,
    and the choice survives a page reload, which resets the lock to
    locked, the page to home and closes the drawer, whatever the system
    colour preference. *)
Theorem theme_switch_then_reload (w w' : world) :
  reachable w -> dispatch w ClickThemeSwitch = Some w' ->
  abs_mode (w_mode w') = Theme.flip (abs_mode (w_mode w)) /\
  abs (reload w') = Spec.init (abs_mode (w_mode w')).
Proof.
  intros Hr Hd. destruct (wf_cases w (wf_reachable w Hr)) as [[m Hm] _].
  dispatch_in Hd w; subst mode; destruct m; split; try done;
    unfold abs, reload, initial_world, Theme.initial_mode; simpl; by simplify_map_eq.
Qed.

(** ** Witnesses *)

(** A first load on a desktop viewport with nothing stored. *)
Definition demo_desktop : world := initial_world ∅ (mk_env 1024 false).

(** The same page after one click on the door button. *)
Definition demo_clicked : world :=
  default demo_desktop (dispatch demo_desktop ClickDoorButton).

Lemma demo_clicked_reachable : reachable demo_clicked.
Proof.
  apply (reachable_step demo_desktop); [constructor|].
  apply (step_ui _ ClickDoorButton). reflexivity.
Qed.

Lemma dispatch_refines_witness :
  reachable demo_desktop /\
  match abs_event ClickThemeSwitch with
  | None => dispatch demo_desktop ClickThemeSwitch = None
  | Some o =>
      match dispatch demo_desktop ClickThemeSwitch with
      | Some w' => Spec.enabled (isMobile demo_desktop) (abs demo_desktop) o = true /\
                   abs w' = Spec.apply (isMobile demo_desktop) (abs demo_desktop) o
      | None => Spec.enabled (isMobile demo_desktop) (abs demo_desktop) o = false
      end
  end.
Proof. split; [constructor|]. apply dispatch_refines. constructor. Defined.

Lemma reachable_invariants_witness :
  reachable demo_clicked /\
  wf demo_clicked /\ theme_synced demo_clicked /\ console_tracks_door demo_clicked.
Proof.
  split; [apply demo_clicked_reachable|].
  apply reachable_invariants, demo_clicked_reachable.
Defined.

Lemma reachable_one_page_selected_witness :
  reachable demo_clicked /\
  let v := render demo_clicked in
  (is_home_page (v_page v) = true <-> w_currentPage demo_clicked = "home") /\
  List.filter Navigation.niv_selected (Navigation.dc_items (Navigation.dv_content (v_drawer v)))
    = List.filter (fun i => Navigation.niv_key i === w_currentPage demo_clicked)
        (Navigation.dc_items (Navigation.dv_content (v_drawer v))) /\
  length (List.filter Navigation.niv_selected
            (Navigation.dc_items (Navigation.dv_content (v_drawer v)))) = 1.
Proof.
  split; [apply demo_clicked_reachable|].
  apply reachable_one_page_selected, demo_clicked_reachable.
Defined.

Lemma theme_switch_then_reload_witness :
  exists w', reachable demo_desktop /\ dispatch demo_desktop ClickThemeSwitch = Some w' /\
    abs_mode (w_mode w') = Theme.flip (abs_mode (w_mode demo_desktop)) /\
    abs (reload w') = Spec.init (abs_mode (w_mode w')).
Proof.
  eexists. split; [constructor|]. split; [reflexivity|].
  apply theme_switch_then_reload; [constructor|reflexivity].
Defined.

End App.
