(* ===== verification/Traces.v ===== *)
(** * Runs of the application: sequences of events

    [run] executes a list of UI events from a world ([None] as soon as one
    event's target is not on screen).  On top of it:
    - liveness: from every reachable world, every combination of lock
      state, page and theme is reached by the events of [plan], at most
      six clicks, each on a control that is on screen;
    - an interleaving of UI events with viewport changes: a navigation
      made on the desktop layout leaves the mobile drawer flag set, so the
      drawer is open again when the viewport narrows. *)

From stdpp Require Import base strings gmap list numbers.
From S2P Require Import Prelude Hooks Browser Theme Door Navigation Spec App.

Module Traces.
Import App.
#[local] Existing Instance Theme.Mode_eq_dec.

(** ** Runs *)

Fixpoint run (w : world) (es : list ui_event) : option world :=
  match es with
  | [] => Some w
  | e :: es' => w' ← dispatch w e; run w' es'
  end.

Lemma run_app (w : world) (es1 es2 : list ui_event) :
  run w (es1 ++ es2) = w1 ← run w es1; run w1 es2.
Proof.
  revert w. induction es1 as [|e es1 IH]; intros w; simpl; [done|].
  destruct (dispatch w e); simpl; auto.
Qed.

Lemma run_app_Some (w w1 : world) (es1 es2 : list ui_event) :
  run w es1 = Some w1 -> run w (es1 ++ es2) = run w1 es2.
Proof. intros H. by rewrite run_app, H. Qed.

(** A run from a reachable world ends in a reachable world. *)
Lemma run_reachable (w w' : world) (es : list ui_event) :
  reachable w -> run w es = Some w' -> reachable w'.
Proof.
  revert w. induction es as [|e es IH]; intros w Hr Hrun; simpl in Hrun.
  - by simplify_eq.
  - destruct (dispatch w e) as [w1|] eqn:Hd; simpl in Hrun; [|done].
    apply (IH w1); [|done]. eapply reachable_step; [done|]. by apply (step_ui _ e).
Qed.

(** ** Liveness *)

Lemma isMobile_mk st env c m l p d :
  isMobile (mk_world st env c m l p d) = matches env mobile_query.
Proof. reflexivity. Qed.

#[local] Arguments isMobile : simpl never.

(** Compute a run from a world whose fields are known, the layout given
    by [Hmob]. *)
Ltac run_simpl Hmob :=
  repeat progress (unfold dispatch, event_paths, render, MainContent,
    Navigation.NavigationDrawer, Navigation.appBar, run_handler, commit;
    cbn; simpl; rewrite ?isMobile_mk, ?Hmob).

Definition nav_id (p : Spec.page) : string :=
  match p with Spec.Home => "home" | Spec.Instructions => "instructions" end.

(** A plan reaching lock state [l], page [p] and theme [t]: show the
    drawer, set the theme, go home, set the lock, show the drawer again
    (on mobile the navigation closed it) and select the page. *)
Definition plan (w : world) (l : bool) (p : Spec.page) (t : Theme.Mode) : list ui_event :=
  (if drawer_shown w then [] else [ClickMenuButton]) ++
  (if bool_decide (abs_mode (w_mode w) = t) then [] else [ClickThemeItem]) ++
  [ClickNavItem "home"] ++
  (if Bool.eqb (w_isDoorLocked w) l then [] else [ClickDoorButton]) ++
  (if isMobile w then [ClickMenuButton] else []) ++
  [ClickNavItem (nav_id p)].

(** The phases of [plan], each from the state the previous one leaves. *)

Lemma phase_show_drawer (w : world) :
  exists w1, run w (if drawer_shown w then [] else [ClickMenuButton]) = Some w1 /\
    drawer_shown w1 = true /\ w_env w1 = w_env w /\ w_mode w1 = w_mode w /\
    w_isDoorLocked w1 = w_isDoorLocked w /\ w_currentPage w1 = w_currentPage w.
Proof.
  destruct w as [st env con mode locked page drawer]; unfold drawer_shown.
  destruct (matches env mobile_query) eqn:Hmob, drawer; run_simpl Hmob;
    eexists; (split; [reflexivity|]); unfold drawer_shown; run_simpl Hmob; done.
Qed.

Lemma phase_theme (w : world) (m t : Theme.Mode) :
  w_mode w = Theme.mode_name m -> drawer_shown w = true ->
  exists w1, run w (if bool_decide (m = t) then [] else [ClickThemeItem]) = Some w1 /\
    w_mode w1 = Theme.mode_name t /\ drawer_shown w1 = true /\ w_env w1 = w_env w /\
    w_isDoorLocked w1 = w_isDoorLocked w /\ w_currentPage w1 = w_currentPage w.
Proof.
  destruct w as [st env con mode locked page drawer]; simpl; intros ->.
  unfold drawer_shown.
  destruct (matches env mobile_query) eqn:Hmob, drawer, m, t; run_simpl Hmob;
    intros Hd; try discriminate; eexists; (split; [reflexivity|]);
    unfold drawer_shown; run_simpl Hmob; done.
Qed.

Lemma phase_navigate (w : world) (p : Spec.page) :
  drawer_shown w = true ->
  exists w1, run w [ClickNavItem (nav_id p)] = Some w1 /\
    w_currentPage w1 = nav_id p /\ w_env w1 = w_env w /\ w_mode w1 = w_mode w /\
    w_isDoorLocked w1 = w_isDoorLocked w /\
    w_drawerOpen w1 = (if isMobile w then false else w_drawerOpen w).
Proof.
  destruct w as [st env con mode locked page drawer]; unfold drawer_shown.
  destruct (matches env mobile_query) eqn:Hmob, drawer, p; run_simpl Hmob;
    intros Hd; try discriminate; eexists; (split; [reflexivity|]); done.
Qed.

Lemma phase_lock (w : world) (l : bool) :
  w_currentPage w = "home" ->
  exists w1, run w (if Bool.eqb (w_isDoorLocked w) l then [] else [ClickDoorButton]) = Some w1 /\
    w_isDoorLocked w1 = l /\ w_currentPage w1 = "home" /\ w_env w1 = w_env w /\
    w_mode w1 = w_mode w /\ w_drawerOpen w1 = w_drawerOpen w.
Proof.
  destruct w as [st env con mode locked page drawer]; simpl; intros ->.
  destruct locked, l; simpl; eexists; (split; [reflexivity|]); done.
Qed.

Lemma phase_reopen (w : world) :
  (isMobile w = true -> w_drawerOpen w = false) ->
  exists w1, run w (if isMobile w then [ClickMenuButton] else []) = Some w1 /\
    drawer_shown w1 = true /\ w_env w1 = w_env w /\ w_mode w1 = w_mode w /\
    w_isDoorLocked w1 = w_isDoorLocked w /\ w_currentPage w1 = w_currentPage w.
Proof.
  destruct w as [st env con mode locked page drawer]; unfold drawer_shown.
  destruct (matches env mobile_query) eqn:Hmob, drawer; run_simpl Hmob;
    intros Hd; try (specialize (Hd eq_refl); discriminate);
    eexists; (split; [reflexivity|]); unfold drawer_shown; run_simpl Hmob; done.
Qed.

(** C23: liveness: from every reachable world, every combination of lock
    state, page and theme is reached, by the at most six clicks of
    [plan], each on a control that is on screen when it is clicked, and
    the world reached is reachable. *)
Theorem plan_reaches (w : world) (l : bool) (p : Spec.page) (t : Theme.Mode) :
  reachable w ->
  exists w', run w (plan w l p t) = Some w' /\ reachable w' /\
    Spec.locked (abs w') = l /\ Spec.page_shown (abs w') = p /\
    Spec.theme (abs w') = t /\ length (plan w l p t) <= 6.
Proof.
  intros Hr. destruct (wf_cases w (wf_reachable w Hr)) as [[m Hm] _].
  destruct (phase_show_drawer w) as (w1 & R1 & D1 & E1 & M1 & L1 & P1).
  destruct (phase_theme w1 m t) as (w2 & R2 & M2 & D2 & E2 & L2 & P2); [congruence|done|].
  destruct (phase_navigate w2 Spec.Home D2) as (w3 & R3 & P3 & E3 & M3 & L3 & O3).
  destruct (phase_lock w3 l P3) as (w4 & R4 & L4 & P4 & E4 & M4 & O4).
  destruct (phase_reopen w4) as (w5 & R5 & D5 & E5 & M5 & L5 & P5).
  { unfold isMobile. rewrite O4, O3, E4. unfold isMobile in *. rewrite E3, E2, E1.
    by intros ->. }
  destruct (phase_navigate w5 p D5) as (w6 & R6 & P6 & E6 & M6 & L6 & O6).
  exists w6.
  assert (Hrun : run w (plan w l p t) = Some w6).
  { unfold plan. rewrite Hm, abs_mode_name.
    change (ClickNavItem "home" :: ?r) with ([ClickNavItem (nav_id Spec.Home)] ++ r).
    rewrite (run_app_Some _ _ _ _ R1), (run_app_Some _ _ _ _ R2), (run_app_Some _ _ _ _ R3).
    rewrite <- L1, <- L2, <- L3, (run_app_Some _ _ _ _ R4).
    replace (isMobile w) with (isMobile w4) by (unfold isMobile; congruence).
    by rewrite (run_app_Some _ _ _ _ R5). }
  split; [done|]. split; [by apply (run_reachable w w6 (plan w l p t))|].
  unfold abs; simpl. rewrite P6, M6, M5, M4, M3, M2, L6, L5, L4.
  split; [done|]. split; [by destruct p|]. split; [apply abs_mode_name|].
  unfold plan. rewrite !length_app. repeat case_match; simpl; lia.
Qed.

(** ** Interleaving with viewport changes *)

(** C24: the drawer flag outlives a change of layout.  With the mobile
    drawer open, widening the viewport past 768px and choosing a page
    there leaves [drawerOpen] set (the item's handler closes the drawer
    only on mobile), so when the viewport narrows again the drawer is
    shown over the new page; the same click made on the mobile layout
    closes the drawer. *)
Theorem drawer_survives_desktop_navigation (w : world) (wide : Z) :
  isMobile w = true -> w_drawerOpen w = true -> (768 < wide)%Z ->
  let desk := mk_env wide (prefers_dark (w_env w)) in
  (exists w2, dispatch (set_env w desk) (ClickNavItem "instructions") = Some w2 /\
     w_currentPage w2 = "instructions" /\ drawer_shown (set_env w2 (w_env w)) = true) /\
  (exists w3, dispatch w (ClickNavItem "instructions") = Some w3 /\
     w_currentPage w3 = "instructions" /\ drawer_shown w3 = false).
Proof.
  destruct w as [st env con mode locked page drawer]; simpl.
  intros Hmob -> Hwide. rewrite isMobile_mk in Hmob.
  assert (Hdesk : bool_decide (wide <= 768)%Z = false).
  { apply bool_decide_eq_false_2. lia. }
  unfold set_env; split; eexists; (split; [|split]); unfold drawer_shown;
    repeat progress (run_simpl Hmob; rewrite ?Hdesk); done.
Qed.

(** ** Witnesses *)

(** A mobile world (500px) with the drawer open on the home page. *)
Definition demo_mobile_open : world :=
  mk_world ∅ (mk_env 500 false) [] "light" true "home" true.

Lemma plan_reaches_witness :
  reachable demo_clicked /\
  exists w', run demo_clicked (plan demo_clicked false Spec.Instructions Theme.Dark) = Some w' /\
    reachable w' /\ Spec.locked (abs w') = false /\
    Spec.page_shown (abs w') = Spec.Instructions /\ Spec.theme (abs w') = Theme.Dark /\
    length (plan demo_clicked false Spec.Instructions Theme.Dark) <= 6.
Proof.
  split; [apply demo_clicked_reachable|].
  apply plan_reaches. apply demo_clicked_reachable.
Defined.

Lemma drawer_survives_desktop_navigation_witness :
  isMobile demo_mobile_open = true /\ w_drawerOpen demo_mobile_open = true /\ (768 < 1024)%Z /\
  let desk := mk_env 1024 (prefers_dark (w_env demo_mobile_open)) in
  (exists w2, dispatch (set_env demo_mobile_open desk) (ClickNavItem "instructions") = Some w2 /\
     w_currentPage w2 = "instructions" /\ drawer_shown (set_env w2 (w_env demo_mobile_open)) = true) /\
  (exists w3, dispatch demo_mobile_open (ClickNavItem "instructions") = Some w3 /\
     w_currentPage w3 = "instructions" /\ drawer_shown w3 = false).
Proof.
  split; [reflexivity|]. split; [reflexivity|]. split; [lia|].
  apply drawer_survives_desktop_navigation; [reflexivity|reflexivity|lia].
Defined.

End Traces.
